(** * awsutil: session factory, request hook and TTL cache

    A shallow embedding of [awsutil/util.go].  The Go package keeps its
    metrics, its debug flag and its log in process-wide variables and its
    caches behind pointers; the embedding threads them through an explicit
    [World] and runs the Go functions in a state monad whose failure case is
    a Go panic. *)

From Stdlib Require Import ZArith.
From stdpp Require Import base gmap strings list fin_maps.

Local Open Scope Z_scope.

(** ** Data *)

(** A Go [interface{}]: the cache stores values of any dynamic type and never
    inspects them. *)
Inductive any :=
  | AnyNil
  | AnyBool (b : bool)
  | AnyInt (n : Z)
  | AnyString (s : string).

(** [ccache.Item]: a stored value and its absolute expiry, in nanoseconds
    since the Unix epoch. *)
Record Item := {
  item_key : string;
  item_value : any;
  item_expires : Z
}.

(** [request.Request], cut down to the fields the send hook reads. *)
Record Operation := {
  Name : string;
  HTTPMethod : string;
  HTTPPath : string
}.

Record Request := {
  ClientInfo_ServiceName : string;
  Request_Operation : Operation;
  Params : any
}.

(** One call of the repository's [log] package. *)
Inductive Level := ErrorLevel | InfoLevel.

Inductive LogArg :=
  | ArgString (s : string)
  | ArgOperation (op : Operation)
  | ArgParams (p : any).

Record LogEntry := {
  log_level : Level;
  log_format : string;
  log_ingress : string;
  log_args : list LogArg
}.

(** The process state the package reads and writes: the wall clock
    ([time.Now().UnixNano()]), the [ccache.Cache] objects reachable through
    pointers, the package variable [AWSDebug], the samples of the counter
    vectors [AWSErrorCount], [AWSCache] and [AWSRequest] (one per tuple of
    label values), and the log written so far.  A sample is a float64 in Go;
    every update in this package adds the integer 1, which float64 represents
    exactly below 2^53, so a sample is kept as its integer value.

    Modelled from the spec: the stores are bounded, and "early eviction of
    a non-expired entry is an acceptable (if surprising) behavior under
    memory pressure"; which entries a store gives up is "an implementation
    choice of the underlying store".  [pressure] holds that choice for the
    Sets to come: its n-th element lists the keys the store drops when the
    n-th Set from now is made, and a Set made after the list has run out
    drops nothing. *)
Record World := {
  clock : Z;
  heap : gmap positive (gmap string Item);
  AWSDebug : bool;
  AWSErrorCount_samples : gmap (list string) Z;
  AWSCache_samples : gmap (list string) Z;
  AWSRequest_samples : gmap (list string) Z;
  logs : list LogEntry;
  pressure : list (list string)
}.

(** [type APICache struct { cache *ccache.Cache }]: the pointer may be nil,
    as in the zero value [APICache{}]. *)
Record APICache := {
  cache : option positive
}.

(** ** The monad of Go calls *)

(** A call either returns a value or panics; both leave a world behind,
    since what a goroutine wrote before a panic stays written. *)
Inductive Res (A : Type) :=
  | Ok (a : A) (w : World)
  | Panic (msg : string) (w : World).
Arguments Ok {A} a w.
Arguments Panic {A} msg w.

Definition M (A : Type) : Type := World → Res A.

#[global] Instance M_ret : MRet M := λ A a w, Ok a w.

#[global] Instance M_bind : MBind M := λ A B f m w,
  match m w with
  | Ok a w' => f a w'
  | Panic msg w' => Panic msg w'
  end.

Definition panic {A : Type} (msg : string) : M A := λ w, Panic msg w.

Definition world_of {A : Type} (r : Res A) : World :=
  match r with
  | Ok _ w => w
  | Panic _ w => w
  end.

Definition result_of {A : Type} (r : Res A) : option A :=
  match r with
  | Ok a _ => Some a
  | Panic _ _ => None
  end.

Definition panics {A : Type} (r : Res A) : bool :=
  match r with
  | Ok _ _ => false
  | Panic _ _ => true
  end.

(** ** World updates *)

Definition set_clock (t : Z) (w : World) : World :=
  {| clock := t; heap := heap w; AWSDebug := AWSDebug w;
     AWSErrorCount_samples := AWSErrorCount_samples w;
     AWSCache_samples := AWSCache_samples w;
     AWSRequest_samples := AWSRequest_samples w; logs := logs w;
     pressure := pressure w |}.

Definition set_heap (h : gmap positive (gmap string Item)) (w : World) : World :=
  {| clock := clock w; heap := h; AWSDebug := AWSDebug w;
     AWSErrorCount_samples := AWSErrorCount_samples w;
     AWSCache_samples := AWSCache_samples w;
     AWSRequest_samples := AWSRequest_samples w; logs := logs w;
     pressure := pressure w |}.

Definition set_AWSErrorCount (m : gmap (list string) Z) (w : World) : World :=
  {| clock := clock w; heap := heap w; AWSDebug := AWSDebug w;
     AWSErrorCount_samples := m;
     AWSCache_samples := AWSCache_samples w;
     AWSRequest_samples := AWSRequest_samples w; logs := logs w;
     pressure := pressure w |}.

Definition set_AWSCache (m : gmap (list string) Z) (w : World) : World :=
  {| clock := clock w; heap := heap w; AWSDebug := AWSDebug w;
     AWSErrorCount_samples := AWSErrorCount_samples w;
     AWSCache_samples := m;
     AWSRequest_samples := AWSRequest_samples w; logs := logs w;
     pressure := pressure w |}.

Definition set_AWSRequest (m : gmap (list string) Z) (w : World) : World :=
  {| clock := clock w; heap := heap w; AWSDebug := AWSDebug w;
     AWSErrorCount_samples := AWSErrorCount_samples w;
     AWSCache_samples := AWSCache_samples w;
     AWSRequest_samples := m; logs := logs w;
     pressure := pressure w |}.

Definition set_logs (l : list LogEntry) (w : World) : World :=
  {| clock := clock w; heap := heap w; AWSDebug := AWSDebug w;
     AWSErrorCount_samples := AWSErrorCount_samples w;
     AWSCache_samples := AWSCache_samples w;
     AWSRequest_samples := AWSRequest_samples w; logs := l;
     pressure := pressure w |}.

Definition set_pressure (p : list (list string)) (w : World) : World :=
  {| clock := clock w; heap := heap w; AWSDebug := AWSDebug w;
     AWSErrorCount_samples := AWSErrorCount_samples w;
     AWSCache_samples := AWSCache_samples w;
     AWSRequest_samples := AWSRequest_samples w; logs := logs w;
     pressure := p |}.

(** ** Time *)

(** [time.Now().UnixNano()]. *)
Definition time_Now : M Z := λ w, Ok (clock w) w.

(** The environment letting [d] nanoseconds pass between two calls. *)
Definition elapse (d : Z) : M unit := λ w, Ok () (set_clock (clock w + d) w).

(** ** The underlying store, [github.com/karlseguin/ccache] *)

(** A method of [*ccache.Cache] reads the fields of its receiver first, so a
    nil receiver panics.  Go has no pointer to an address that holds no
    object; the embedding treats such an address like nil. *)
Definition deref (p : option positive) : M (gmap string Item) := λ w,
  match p with
  | None => Panic "invalid memory address or nil pointer dereference" w
  | Some l =>
      match heap w !! l with
      | Some c => Ok c w
      | None => Panic "invalid memory address or nil pointer dereference" w
      end
  end.

Definition store (p : option positive) (c : gmap string Item) : M unit := λ w,
  match p with
  | None => Panic "invalid memory address or nil pointer dereference" w
  | Some l => Ok () (set_heap (<[l := c]> (heap w)) w)
  end.

(** Modelled from the spec: [ccache.Cache.Get] is not part of the sources.
    The store is "an underlying general-purpose expiring key/value store"
    whose "physical eviction is lazy": a lookup returns the entry it holds,
    expired or not, and [nil] for a key it does not hold. *)
Definition ccache_Get (p : option positive) (key : string) : M (option Item) :=
  c ← deref p; mret (c !! key).

(** Modelled from the spec: [ccache.Item.Expired] is not part of the sources.
    "An entry is visible via a lookup if and only if the current time is
    strictly before [expires_at]", read at the time of the call. *)
Definition Item_Expired (i : Item) : M bool :=
  now ← time_Now; mret (bool_decide (item_expires i ≤ now)).

(** The store [c] without the keys [ks]. *)
Definition evict (ks : list string) (c : gmap string Item) : gmap string Item :=
  foldr delete c ks.

(** The keys the store drops at the Set being made. *)
Definition next_eviction : M (list string) := λ w,
  Ok (hd [] (pressure w)) (set_pressure (tl (pressure w)) w).

(** Modelled from the spec: [ccache.Cache.Set] is not part of the sources.
    It "overwrites any existing entry for [key]" and stores the "absolute
    expiration timestamp ([now + ttl] at write time)".  Under memory
    pressure it may drop other entries, expired or not; the entry it writes
    is there when it returns ("immediately after [Set(k, v, ttl)],
    [Get(k) == v]"). *)
Definition ccache_Set (p : option positive) (key : string) (value : any)
    (duration : Z) : M unit :=
  now ← time_Now;
  c ← deref p;
  ks ← next_eviction;
  store p (<[key := {| item_key := key; item_value := value;
                       item_expires := now + duration |}]> (evict ks c)).

(** ** [APICache] *)

(** [func (ac APICache) Get(key string) *ccache.Item] *)
Definition APICache_Get (ac : APICache) (key : string) : M (option Item) :=
  i ← ccache_Get (cache ac) key;
  match i return M (option Item) with
  | None => mret None
  | Some it =>
      expired ← Item_Expired it;
      if expired : bool then mret None else mret (Some it)
  end.

(** [func (ac APICache) Set(key string, value interface{}, duration time.Duration)] *)
Definition APICache_Set (ac : APICache) (key : string) (value : any)
    (duration : Z) : M unit :=
  ccache_Set (cache ac) key value duration.

(** ** Metrics, [github.com/prometheus/client_golang] *)

(** A [prometheus.CounterVec]: the label names given to [NewCounterVec] and
    the place of its samples in the world. *)
Record CounterVec := {
  labelNames : list string;
  samples : World → gmap (list string) Z;
  set_samples : gmap (list string) Z → World → World
}.

(** [AWSErrorCount], [AWSCache] and [AWSRequest] as the [var] block declares
    them. *)
Definition AWSErrorCount : CounterVec :=
  {| labelNames := ["service"; "request"]%string;
     samples := AWSErrorCount_samples;
     set_samples := set_AWSErrorCount |}.

Definition AWSCache : CounterVec :=
  {| labelNames := ["cache"; "action"]%string;
     samples := AWSCache_samples;
     set_samples := set_AWSCache |}.

Definition AWSRequest : CounterVec :=
  {| labelNames := ["service"; "operation"]%string;
     samples := AWSRequest_samples;
     set_samples := set_AWSRequest |}.

(** The counter of one tuple of label values. *)
Record Counter := {
  counter_vec : CounterVec;
  counter_labels : list string
}.

Definition counter_value (vec : CounterVec) (vals : list string) (w : World) : Z :=
  default 0 (samples vec w !! vals).

(** The label values picked out of a [prometheus.Labels] map, in the order
    of the label names; none when the map does not have exactly these
    names. *)
Definition label_values (names : list string) (labels : gmap string string)
    : option (list string) :=
  if decide (size labels = length names)
  then mapM (λ n, labels !! n) names
  else None.

(** [CounterVec.With]: "With works as GetMetricWith, but panics where
    GetMetricWithLabels would have returned an error". *)
Definition With (vec : CounterVec) (labels : gmap string string) : M Counter :=
  match label_values (labelNames vec) labels with
  | Some vals => mret {| counter_vec := vec; counter_labels := vals |}
  | None => panic "inconsistent label cardinality"
  end.

(** [Counter.Add]: "Add adds the given value to the counter. It panics if
    the value is < 0". *)
Definition Counter_Add (c : Counter) (v : Z) : M unit := λ w,
  if bool_decide (v < 0)
  then Panic "counter cannot decrease in value" w
  else
    let vec := counter_vec c in
    let vals := counter_labels c in
    Ok () (set_samples vec (<[vals := counter_value vec vals w + v]> (samples vec w)) w).

(** ** Logging *)

(** Modelled from the spec: the repository's [log] package is not part of
    the sources.  A call "emits a verbose trace line", one per call; the line
    is kept as the level, the format, the ingress name and the arguments. *)
Definition log_Errorf (format ingressName : string) (args : list LogArg) : M unit :=
  λ w, Ok () (set_logs (logs w ++ [{| log_level := ErrorLevel; log_format := format;
                                     log_ingress := ingressName; log_args := args |}]) w).

Definition log_Infof (format ingressName : string) (args : list LogArg) : M unit :=
  λ w, Ok () (set_logs (logs w ++ [{| log_level := InfoLevel; log_format := format;
                                     log_ingress := ingressName; log_args := args |}]) w).

(** ** Sessions, [github.com/aws/aws-sdk-go] *)

(** A [request.NamedHandler]: a function of a request pointer, which may
    write to the request it is given. *)
Definition Handler : Type := Request → M Request.

(** [session.Session], cut down to [Handlers.Send]. *)
Record Session := {
  Handlers_Send : list Handler
}.

(** [HandlerList.PushFront]. *)
Definition PushFront (f : Handler) (l : list Handler) : list Handler := f :: l.

(** [HandlerList.Run]: the handlers of the list, each called once, in the
    order of the list, on the same request. *)
Fixpoint HandlerList_Run (l : list Handler) (r : Request) : M Request :=
  match l with
  | [] => mret r
  | h :: l' => r' ← h r; HandlerList_Run l' r'
  end.

(** One physical send of [r] through the session [s]: the SDK runs the Send
    handlers of the session on the request. *)
Definition send (s : Session) (r : Request) : M Request :=
  HandlerList_Run (Handlers_Send s) r.

(** The function literal [NewSession] pushes on [Handlers.Send]. *)
Definition sendHook : Handler := λ r,
  c ← With AWSRequest {[ "service" := ClientInfo_ServiceName r;
                         "operation" := Name (Request_Operation r) ]};
  Counter_Add c 1;;
  debug ← (λ w, Ok (AWSDebug w) w);
  (if debug : bool
   then log_Infof "Request: %s/%s, Payload: %s" "aws"
          [ArgString (ClientInfo_ServiceName r);
           ArgOperation (Request_Operation r);
           ArgParams (Params r)]
   else mret ());;
  mret r.

Section NewSession.

(** [aws.Config] is opaque here, and [session.NewSession] of the SDK is a
    parameter: it yields a session or an error, and has no access to the
    variables of this package. *)
Variable aws_Config : Type.
Variable session_NewSession : aws_Config → Session + string.

(** [func NewSession(awsconfig *aws.Config) *session.Session] *)
Definition NewSession (awsconfig : aws_Config) : M (option Session) :=
  match session_NewSession awsconfig with
  | inr err =>
      c ← With AWSErrorCount {[ "service" := "AWS"; "request" := "NewSession" ]};
      Counter_Add c 1;;
      log_Errorf "Failed to create AWS session. Error: %s." "aws" [ArgString err];;
      mret None
  | inl session =>
      mret (Some {| Handlers_Send := PushFront sendHook (Handlers_Send session) |})
  end.

End NewSession.

(** ** Histories of cache calls *)

(** What a caller does with one cache over time: it sets a key, gets a key,
    or lets time pass. *)
Inductive Call :=
  | CallSet (key : string) (value : any) (duration : Z)
  | CallGet (key : string)
  | Wait (d : Z).

Definition call (ac : APICache) (c : Call) : M unit :=
  match c with
  | CallSet key value duration => APICache_Set ac key value duration
  | CallGet key => APICache_Get ac key;; mret ()
  | Wait d => elapse d
  end.

Fixpoint calls (ac : APICache) (cs : list Call) : M unit :=
  match cs with
  | [] => mret ()
  | c :: cs' => call ac c;; calls ac cs'
  end.

(** The clock reading after the calls [cs], started at the reading [now]. *)
Fixpoint clock_after (cs : list Call) (now : Z) : Z :=
  match cs with
  | [] => now
  | Wait d :: cs' => clock_after cs' (now + d)
  | _ :: cs' => clock_after cs' now
  end.

(** The most recent Set of [key] among the calls [cs], started at the clock
    reading [now]: the clock reading at which it was made, its TTL and its
    value; [acc] is the most recent Set before [cs], if any. *)
Fixpoint last_Set (key : string) (cs : list Call) (now : Z)
    (acc : option (Z * Z * any)) : option (Z * Z * any) :=
  match cs with
  | [] => acc
  | CallSet k v d :: cs' =>
      last_Set key cs' now (if decide (k = key) then Some (now, d, v) else acc)
  | CallGet _ :: cs' => last_Set key cs' now acc
  | Wait d :: cs' => last_Set key cs' (now + d) acc
  end.

(** No call of [cs] sets [key]. *)
Definition no_Set (key : string) (cs : list Call) : bool :=
  forallb (λ c, match c with
                | CallSet k _ _ => bool_decide (k ≠ key)
                | _ => true
                end) cs.

(** The clock never goes back during [cs]. *)
Definition clock_forward (cs : list Call) : bool :=
  forallb (λ c, match c with
                | Wait d => bool_decide (0 ≤ d)
                | _ => true
                end) cs.

(** The entry the store holds for [key] after the Set described by [s]. *)
Definition entry_of (key : string) (s : option (Z * Z * any)) : option Item :=
  (λ '(t, ttl, v), {| item_key := key; item_value := v; item_expires := t + ttl |}) <$> s.

(** What [APICache.Get] answers at the clock reading [now] when the store
    holds [e] for the key. *)
Definition visible (now : Z) (e : option Item) : option Item :=
  match e with
  | Some it => if bool_decide (item_expires it ≤ now) then None else Some it
  | None => None
  end.

(** ** More about histories *)


(** The entry a store at address [l] holds for [key] in the world [w], if
    there is such a store and it holds one. *)
Definition held (w : World) (l : positive) (key : string) : option Item :=
  heap w !! l ≫= λ c, c !! key.

(** ** The package as its users drive it *)

(** The collaborator's assignment to the package variable [AWSDebug]. *)
Definition set_AWSDebug (b : bool) (w : World) : World :=
  {| clock := clock w; heap := heap w; AWSDebug := b;
     AWSErrorCount_samples := AWSErrorCount_samples w;
     AWSCache_samples := AWSCache_samples w;
     AWSRequest_samples := AWSRequest_samples w; logs := logs w;
     pressure := pressure w |}.

Section Actions.

Variable aws_Config : Type.
Variable session_NewSession : aws_Config → Session + string.

(** One step of a process that uses the package: it asks for a session,
    has the send hook run on a request, gets from or sets in a cache, flips
    [AWSDebug], or lets time pass. *)
Inductive Action :=
  | ActNewSession (awsconfig : aws_Config)
  | ActHook (r : Request)
  | ActGet (ac : APICache) (key : string)
  | ActSet (ac : APICache) (key : string) (value : any) (duration : Z)
  | ActDebug (b : bool)
  | ActWait (d : Z).

Definition act (a : Action) : M unit :=
  match a with
  | ActNewSession awsconfig => NewSession aws_Config session_NewSession awsconfig;; mret ()
  | ActHook r => sendHook r;; mret ()
  | ActGet ac key => APICache_Get ac key;; mret ()
  | ActSet ac key value duration => APICache_Set ac key value duration
  | ActDebug b => λ w, Ok () (set_AWSDebug b w)
  | ActWait d => elapse d
  end.

Fixpoint acts (l : list Action) : M unit :=
  match l with
  | [] => mret ()
  | a :: l' => act a;; acts l'
  end.

End Actions.

(** Every sample of the three counter vectors is in [w'] at least what it
    is in [w]. *)
Definition counters_le (w w' : World) : Prop :=
  ∀ vals,
    counter_value AWSErrorCount vals w ≤ counter_value AWSErrorCount vals w'
    ∧ counter_value AWSCache vals w ≤ counter_value AWSCache vals w'
    ∧ counter_value AWSRequest vals w ≤ counter_value AWSRequest vals w'.

(** ** Registration of the metrics, [init] *)

(** A [prometheus.Desc] as the options of the [var] block make it: the
    fully-qualified name, the help text and the names of the variable
    labels.  None of the metrics of this package has constant labels. *)
Record Desc := {
  fqName : string;
  help : string;
  variableLabels : list string
}.

Definition OnUpdateCount_desc : Desc :=
  {| fqName := "albingress_updates";
     help := "Number of times OnUpdate has been called.";
     variableLabels := [] |}.

Definition ReloadCount_desc : Desc :=
  {| fqName := "albingress_reloads";
     help := "Number of times Reload has been called.";
     variableLabels := [] |}.

Definition AWSErrorCount_desc : Desc :=
  {| fqName := "albingress_aws_errors";
     help := "Number of errors from the AWS API";
     variableLabels := labelNames AWSErrorCount |}.

Definition ManagedIngresses_desc : Desc :=
  {| fqName := "albingress_managed_ingresses";
     help := "Number of ingresses being managed";
     variableLabels := [] |}.

Definition AWSCache_desc : Desc :=
  {| fqName := "albingress_cache";
     help := "Number of ingresses being managed";
     variableLabels := labelNames AWSCache |}.

Definition AWSRequest_desc : Desc :=
  {| fqName := "albingress_aws_requests";
     help := "Number of requests made to the AWS API";
     variableLabels := labelNames AWSRequest |}.

(** The collectors [init] registers, in its order. *)
Definition package_descs : list Desc :=
  [OnUpdateCount_desc; ReloadCount_desc; AWSErrorCount_desc;
   ManagedIngresses_desc; AWSCache_desc; AWSRequest_desc].

Definition is_letter (a : Ascii.ascii) : bool :=
  let n := Ascii.nat_of_ascii a in
  ((65 <=? n) && (n <=? 90) || (97 <=? n) && (n <=? 122))%nat.

Definition is_digit (a : Ascii.ascii) : bool :=
  let n := Ascii.nat_of_ascii a in ((48 <=? n) && (n <=? 57))%nat.

Definition is_underscore (a : Ascii.ascii) : bool := (Ascii.nat_of_ascii a =? 95)%nat.

Definition is_colon (a : Ascii.ascii) : bool := (Ascii.nat_of_ascii a =? 58)%nat.

(** A metric name matches [[a-zA-Z_:][a-zA-Z0-9_:]*]. *)
Definition valid_metric_name (s : string) : bool :=
  match s with
  | EmptyString => false
  | String a s' =>
      (is_letter a || is_underscore a || is_colon a)
      && forallb (λ b, is_letter b || is_digit b || is_underscore b || is_colon b)
           (String.list_ascii_of_string s')
  end.

(** A label name matches [[a-zA-Z_][a-zA-Z0-9_]*] and does not start with
    two underscores. *)
Definition valid_label_name (s : string) : bool :=
  match s with
  | EmptyString => false
  | String a s' =>
      (is_letter a || is_underscore a)
      && forallb (λ b, is_letter b || is_digit b || is_underscore b)
           (String.list_ascii_of_string s')
      && negb (String.prefix "__" s)
  end.

(** A descriptor [prometheus.NewDesc] builds without an error: the help is
    not empty, the name is a metric name, the labels are label names and no
    label comes twice. *)
Definition valid_desc (d : Desc) : bool :=
  negb (bool_decide (help d = ""%string))
  && valid_metric_name (fqName d)
  && forallb valid_label_name (variableLabels d)
  && bool_decide (NoDup (variableLabels d)).

(** [prometheus.Register] on a registry kept by fully-qualified name: it
    fails on an invalid descriptor and on a name the registry already
    holds, which without constant labels is either the same collector
    registered twice or an inconsistent one. *)
Definition Register (d : Desc) (reg : gmap string Desc) : option (gmap string Desc) :=
  if valid_desc d && bool_decide (reg !! fqName d = None)
  then Some (<[fqName d := d]> reg)
  else None.

(** [prometheus.MustRegister]: "MustRegister works like Register but
    panics where Register would have returned an error"; a panic is [None]. *)
Definition MustRegister (d : Desc) (reg : gmap string Desc) : option (gmap string Desc) :=
  Register d reg.

(** [func init()] *)
Definition init (reg : gmap string Desc) : option (gmap string Desc) :=
  reg ← MustRegister OnUpdateCount_desc reg;
  reg ← MustRegister ReloadCount_desc reg;
  reg ← MustRegister AWSErrorCount_desc reg;
  reg ← MustRegister ManagedIngresses_desc reg;
  reg ← MustRegister AWSCache_desc reg;
  MustRegister AWSRequest_desc reg.

(** ** Example worlds *)

(** A process whose counters are at zero, with one empty cache at address 1
    and the clock at 2017-07-14T02:40:00Z. *)
Definition world0 : World :=
  {| clock := 1500000000000000000;
     heap := {[ 1%positive := ∅ ]};
     AWSDebug := false;
     AWSErrorCount_samples := ∅;
     AWSCache_samples := ∅;
     AWSRequest_samples := ∅;
     logs := [];
     pressure := [] |}.

Definition cache0 : APICache := {| cache := Some 1%positive |}.

(** The zero value [APICache{}]. *)
Definition cache_nil : APICache := {| cache := None |}.

(** [world0] after [Set("a", 42, 100)] on [cache0]. *)
Definition world1 : World :=
  world_of (APICache_Set cache0 "a" (AnyInt 42) 100 world0).



(** [world0] with a store under pressure: its first Set from now drops
    nothing, its second drops the key ["b"]. *)
Definition world_tight : World := set_pressure [[]; ["b"%string]] world0.


(** The line the send hook logs for the request [r]. *)
Definition hook_line (r : Request) : LogEntry :=
  {| log_level := InfoLevel;
     log_format := "Request: %s/%s, Payload: %s";
     log_ingress := "aws";
     log_args := [ArgString (ClientInfo_ServiceName r);
                  ArgOperation (Request_Operation r);
                  ArgParams (Params r)] |}.

(** The label values under which the send hook counts the request [r]. *)
Definition request_labels (r : Request) : list string :=
  [ClientInfo_ServiceName r; Name (Request_Operation r)].

(** The line [NewSession] logs when the SDK fails with [err]. *)
Definition failure_line (err : string) : LogEntry :=
  {| log_level := ErrorLevel;
     log_format := "Failed to create AWS session. Error: %s.";
     log_ingress := "aws";
     log_args := [ArgString err] |}.

(** Several sends through one session, one after the other. *)
Fixpoint sends (s : Session) (rs : list Request) : M unit :=
  match rs with
  | [] => mret ()
  | r :: rs' => send s r;; sends s rs'
  end.

(** A handler that returns and leaves the request counter, the log and the
    debug flag alone, as the handlers of the SDK do. *)
Definition quiet (h : Handler) : Prop :=
  ∀ r w, ∃ r' w', h r w = Ok r' w'
    ∧ AWSRequest_samples w' = AWSRequest_samples w
    ∧ logs w' = logs w
    ∧ AWSDebug w' = AWSDebug w.

(** The handler that puts the request on the wire, as far as this package
    can see it. *)
Definition transport : Handler := λ r, mret r.

(** An SDK whose session construction always fails, one whose sessions have
    the transport as their one Send handler, and a request to send. *)
Definition sdk_failing : unit → Session + string := λ _, inr "NoCredentialProviders"%string.

Definition sdk_plain : unit → Session + string :=
  λ _, inl {| Handlers_Send := [transport] |}.

Definition request0 : Request :=
  {| ClientInfo_ServiceName := "ec2";
     Request_Operation := {| Name := "DescribeInstances"; HTTPMethod := "POST";
                             HTTPPath := "/" |};
     Params := AnyNil |}.

(** * Properties *)

(** ** Running the cache operations *)

Ltac run :=
  unfold APICache_Get, APICache_Set, ccache_Get, ccache_Set, Item_Expired,
    next_eviction, deref, store, time_Now, elapse, panic, mbind, M_bind,
    mret, M_ret; simpl.

(** Eviction drops the listed keys and leaves the other entries. *)
Lemma lookup_evict ks c (k : string) :
  evict ks c !! k = if decide (k ∈ ks) then None else c !! k.
Proof.
  unfold evict. induction ks as [|a ks IH].
  - by destruct (decide (k ∈ [])) as [H%elem_of_nil|].
  - change (foldr delete c (a :: ks)) with (delete a (foldr delete c ks)).
    rewrite lookup_delete, IH.
    destruct (decide (a = k)) as [->|Hne].
    + rewrite decide_True; [done|]. apply elem_of_cons. by left.
    + destruct (decide (k ∈ ks)) as [Hin|Hin].
      * rewrite decide_True; [done|]. apply elem_of_cons. by right.
      * rewrite decide_False; [done|]. intros [?|?]%elem_of_cons; congruence.
Qed.

Lemma lookup_evict_cases ks c (k : string) :
  evict ks c !! k = c !! k ∨ evict ks c !! k = None.
Proof. rewrite lookup_evict. destruct (decide (k ∈ ks)); auto. Qed.

Lemma APICache_Get_run ac l w c key :
  cache ac = Some l → heap w !! l = Some c →
  APICache_Get ac key w = Ok (visible (clock w) (c !! key)) w.
Proof.
  intros Hl Hc. run. rewrite Hl, Hc. simpl.
  destruct (c !! key) as [it|]; simpl; [|done].
  by destruct (bool_decide (item_expires it ≤ clock w)).
Qed.

(** A Set drops what the store gives up at this Set, writes its entry, and
    uses up one element of [pressure]. *)
Lemma APICache_Set_run ac l w c key v d :
  cache ac = Some l → heap w !! l = Some c →
  APICache_Set ac key v d w =
    Ok () (set_heap (<[l := <[key := {| item_key := key; item_value := v;
                                        item_expires := clock w + d |}]>
                             (evict (hd [] (pressure w)) c)]> (heap w))
             (set_pressure (tl (pressure w)) w)).
Proof. intros Hl Hc. run. by rewrite Hl, Hc. Qed.

Lemma APICache_Get_nil ac key w :
  cache ac = None →
  APICache_Get ac key w = Panic "invalid memory address or nil pointer dereference" w.
Proof. intros Hl. run. by rewrite Hl. Qed.

Lemma APICache_Set_nil ac key v d w :
  cache ac = None →
  APICache_Set ac key v d w = Panic "invalid memory address or nil pointer dereference" w.
Proof. intros Hl. run. by rewrite Hl. Qed.

Lemma APICache_Get_dangling ac l key w :
  cache ac = Some l → heap w !! l = None →
  APICache_Get ac key w = Panic "invalid memory address or nil pointer dereference" w.
Proof. intros Hl Hc. run. by rewrite Hl, Hc. Qed.

Lemma APICache_Set_dangling ac l key v d w :
  cache ac = Some l → heap w !! l = None →
  APICache_Set ac key v d w = Panic "invalid memory address or nil pointer dereference" w.
Proof. intros Hl Hc. run. by rewrite Hl, Hc. Qed.

Lemma bind_Ok {A B} (m : M A) (f : A → M B) w a w' :
  m w = Ok a w' → (m ≫= f) w = f a w'.
Proof. intros H. unfold mbind, M_bind. by rewrite H. Qed.


(** The world right after a Set on a live cache: the store holds the entry
    just written, the clock has not moved. *)
Lemma APICache_Set_then ac l w c key v d :
  cache ac = Some l → heap w !! l = Some c →
  ∃ w1 c1, APICache_Set ac key v d w = Ok () w1
    ∧ heap w1 !! l = Some c1
    ∧ clock w1 = clock w
    ∧ AWSCache_samples w1 = AWSCache_samples w
    ∧ c1 !! key = Some {| item_key := key; item_value := v;
                          item_expires := clock w + d |}
    ∧ ∀ key', key' ≠ key → c1 !! key' = c !! key' ∨ c1 !! key' = None.
Proof.
  intros Hl Hc. eexists _, _. split; [by apply APICache_Set_run|].
  simpl. split; [apply lookup_insert_eq|]. split; [done|]. split; [done|].
  split; [apply lookup_insert_eq|].
  intros key' Hne. rewrite lookup_insert_ne by done. apply lookup_evict_cases.
Qed.

(** The calls of a history all return, and the store then holds, for each
    key, the entry of the most recent Set of that key, unless it has
    dropped it. *)
Lemma calls_run ac l cs : ∀ w c,
  cache ac = Some l → heap w !! l = Some c →
  ∃ w' c', calls ac cs w = Ok () w'
    ∧ heap w' !! l = Some c'
    ∧ clock w' = clock_after cs (clock w)
    ∧ AWSCache_samples w' = AWSCache_samples w
    ∧ ∀ key acc, c !! key = entry_of key acc ∨ c !! key = None →
        c' !! key = entry_of key (last_Set key cs (clock w) acc)
        ∨ c' !! key = None.
Proof.
  induction cs as [|[k v d|k|d] cs IH]; intros w c Hl Hc; simpl.
  - exists w, c. by repeat split.
  - destruct (APICache_Set_then ac l w c k v d Hl Hc)
      as (w1 & c1 & Hset & Hc1 & Hclk1 & Hcnt1 & Hk & Hother).
    destruct (IH w1 c1 Hl Hc1) as (w' & c' & Hrun & Hc' & Hclk & Hcnt & Hinv).
    exists w', c'. split; [by erewrite bind_Ok by exact Hset|].
    split; [done|]. split; [by rewrite Hclk, Hclk1|].
    split; [by rewrite Hcnt, Hcnt1|].
    intros key acc Hacc. rewrite <- Hclk1. apply Hinv. rewrite Hclk1.
    destruct (decide (k = key)) as [->|Hne].
    + left. by rewrite Hk.
    + destruct (Hother key) as [-> | ->]; [done|done|by right].
  - destruct (IH w c Hl Hc) as (w' & c' & Hrun & Hc' & Hclk & Hcnt & Hinv).
    exists w', c'. split; [|by repeat split].
    erewrite bind_Ok; [exact Hrun|].
    erewrite bind_Ok; [|by eapply APICache_Get_run]. done.
  - destruct (IH (set_clock (clock w + d) w) c Hl Hc)
      as (w' & c' & Hrun & Hc' & Hclk & Hcnt & Hinv).
    exists w', c'. split; [|by repeat split].
    erewrite bind_Ok; [exact Hrun|]. done.
Qed.

Lemma no_Set_last_Set key cs : ∀ now acc,
  no_Set key cs = true → last_Set key cs now acc = acc.
Proof.
  induction cs as [|[k v d|k|d] cs IH]; intros now acc H; simpl in *; [done|..].
  - apply andb_prop in H as [Hk H]. apply bool_decide_eq_true in Hk.
    rewrite decide_False by done. by apply IH.
  - by apply IH.
  - by apply IH.
Qed.

Lemma clock_forward_le cs : ∀ now,
  clock_forward cs = true → now ≤ clock_after cs now.
Proof.
  induction cs as [|[k v d|k|d] cs IH]; intros now H; simpl in *; [lia|..].
  - by apply IH.
  - by apply IH.
  - apply andb_prop in H as [Hd H]. apply bool_decide_eq_true in Hd.
    specialize (IH (now + d) H). lia.
Qed.

(** [APICache.Get] writes nothing at all: whether it returns or panics, the
    world after the call is the world before it. *)
Lemma APICache_Get_world ac key w : world_of (APICache_Get ac key w) = w.
Proof.
  destruct (cache ac) as [l|] eqn:Hl.
  - destruct (heap w !! l) as [c|] eqn:Hc.
    + by erewrite APICache_Get_run.
    + by erewrite APICache_Get_dangling.
  - by rewrite APICache_Get_nil.
Qed.

(** [APICache.Set] writes to the store, uses up pressure, and writes to
    nothing else. *)
Lemma APICache_Set_world ac key v d w :
  ∃ h p, world_of (APICache_Set ac key v d w) = set_heap h (set_pressure p w).
Proof.
  destruct (cache ac) as [l|] eqn:Hl.
  - destruct (heap w !! l) as [c|] eqn:Hc.
    + erewrite APICache_Set_run by done. by eexists _, _.
    + erewrite APICache_Set_dangling by done.
      exists (heap w), (pressure w). by destruct w.
  - rewrite APICache_Set_nil by done.
    exists (heap w), (pressure w). by destruct w.
Qed.

(** ** The TTL cache *)

(** C1, as the code has it: [APICache.Get] and [APICache.Set] do not touch
    the cache counter.  After either call every sample of [AWSCache], for
    every cache name and every action, is what it was before the call; an
    [APICache] carries no cache name, and counting hits, misses and sets is
    left to its callers. *)
Theorem cache_calls_leave_AWSCache ac key v d w :
  samples AWSCache (world_of (APICache_Get ac key w)) = samples AWSCache w
  ∧ samples AWSCache (world_of (APICache_Set ac key v d w)) = samples AWSCache w.
Proof.
  split.
  - by rewrite APICache_Get_world.
  - destruct (APICache_Set_world ac key v d w) as (h & p & ->). done.
Qed.

(** C1 fails as stated: a Get that misses and a Set on a live cache both
    return, and no sample of [AWSCache] with action [miss], respectively
    [set], has gone up by one, whatever the cache name. *)
Lemma cache_calls_count_nothing :
  result_of (APICache_Get cache0 "a" world0) = Some None
  ∧ (∀ name : string,
       counter_value AWSCache [name; "miss"%string]
         (world_of (APICache_Get cache0 "a" world0))
       ≠ counter_value AWSCache [name; "miss"%string] world0 + 1)
  ∧ result_of (APICache_Set cache0 "a" (AnyInt 42) 100 world0) = Some ()
  ∧ (∀ name : string,
       counter_value AWSCache [name; "set"%string]
         (world_of (APICache_Set cache0 "a" (AnyInt 42) 100 world0))
       ≠ counter_value AWSCache [name; "set"%string] world0 + 1).
Proof.
  split; [reflexivity|]. split.
  { intros name. rewrite APICache_Get_world. lia. }
  split; [reflexivity|].
  intros name.
  destruct (APICache_Set_world cache0 "a" (AnyInt 42) 100 world0) as (h & p & ->).
  unfold counter_value. simpl. lia.
Qed.

(** C2, as the code has it: after any history of Sets, Gets and waits on a
    cache that started empty, [APICache.Get] returns, and it returns [nil]
    exactly when the key was never set, or the time since its most recent
    Set is at least the TTL of that Set by the clock reading of the call, or
    the store no longer holds an entry for the key, having dropped it under
    memory pressure. *)
Theorem Get_absent_iff_never_set_expired_or_evicted ac l w cs key :
  cache ac = Some l → heap w !! l = Some ∅ →
  panics ((calls ac cs;; APICache_Get ac key) w) = false
  ∧ (result_of ((calls ac cs;; APICache_Get ac key) w) = Some None
     ↔ last_Set key cs (clock w) None = None
       ∨ (∃ t ttl v, last_Set key cs (clock w) None = Some (t, ttl, v)
                     ∧ ttl ≤ clock_after cs (clock w) - t)
       ∨ held (world_of (calls ac cs w)) l key = None).
Proof.
  intros Hl Hc.
  destruct (calls_run ac l cs w ∅ Hl Hc) as (w' & c' & Hrun & Hc' & Hclk & _ & Hinv).
  specialize (Hinv key None (or_introl (lookup_empty key))).
  erewrite bind_Ok by exact Hrun.
  erewrite APICache_Get_run by done. rewrite Hrun. simpl. split; [done|].
  unfold held. rewrite Hc', Hclk. simpl.
  destruct Hinv as [Hk|Hk]; rewrite Hk; [|by intuition].
  destruct (last_Set key cs (clock w) None) as [[[t ttl] v]|]; simpl.
  - case_bool_decide as Hexp; split.
    + intros _. right. left. exists t, ttl, v. split; [done|lia].
    + done.
    + intros [=].
    + intros [[=]|[(t' & ttl' & v' & [= <- <- <-] & Hle)|[=]]]. lia.
  - split; [by left|done].
Qed.

Lemma Get_absent_iff_never_set_expired_or_evicted_witness :
  cache cache0 = Some 1%positive
  ∧ heap world0 !! 1%positive = Some ∅
  ∧ panics ((calls cache0 [CallSet "a" (AnyInt 42) 100; Wait 150];;
             APICache_Get cache0 "a") world0) = false
  ∧ (result_of ((calls cache0 [CallSet "a" (AnyInt 42) 100; Wait 150];;
                 APICache_Get cache0 "a") world0) = Some None
     ↔ last_Set "a" [CallSet "a" (AnyInt 42) 100; Wait 150] (clock world0) None = None
       ∨ (∃ t ttl v,
            last_Set "a" [CallSet "a" (AnyInt 42) 100; Wait 150] (clock world0) None
              = Some (t, ttl, v)
            ∧ ttl ≤ clock_after [CallSet "a" (AnyInt 42) 100; Wait 150] (clock world0) - t)
       ∨ held (world_of (calls cache0 [CallSet "a" (AnyInt 42) 100; Wait 150] world0))
           1%positive "a" = None).
Proof.
  split; [reflexivity|]. split; [reflexivity|].
  apply (Get_absent_iff_never_set_expired_or_evicted cache0 1%positive world0
           [CallSet "a" (AnyInt 42) 100; Wait 150] "a"); reflexivity.
Defined.

(** C2 fails as stated: in a store under pressure, the key ["b"] has been
    set with a TTL of 100 and no time has passed, and a Get of ["b"] returns
    [nil] all the same, because the Set of ["a"] made the store drop it. *)
Lemma live_entry_can_be_evicted :
  result_of ((calls cache0 [CallSet "b" (AnyInt 7) 100; CallSet "a" (AnyInt 42) 100];;
              APICache_Get cache0 "b") world_tight) = Some None
  ∧ last_Set "b" [CallSet "b" (AnyInt 7) 100; CallSet "a" (AnyInt 42) 100]
      (clock world_tight) None = Some (clock world_tight, 100, AnyInt 7)
  ∧ ¬ (100 ≤ clock_after [CallSet "b" (AnyInt 7) 100; CallSet "a" (AnyInt 42) 100]
               (clock world_tight) - clock world_tight).
Proof. split; [reflexivity|]. split; [reflexivity|]. simpl. lia. Qed.

(** The store still holds an entry whose TTL has elapsed; it is
    [APICache.Get] that hides it. *)
Lemma Get_hides_expired_entry ac l w c key v ttl d :
  cache ac = Some l → heap w !! l = Some c → ttl ≤ d →
  result_of ((APICache_Set ac key v ttl;; elapse d;; ccache_Get (cache ac) key) w)
    = Some (Some {| item_key := key; item_value := v; item_expires := clock w + ttl |})
  ∧ result_of ((APICache_Set ac key v ttl;; elapse d;; APICache_Get ac key) w)
    = Some None.
Proof.
  intros Hl Hc Hd. split.
  - erewrite bind_Ok by by apply APICache_Set_run.
    erewrite bind_Ok by reflexivity.
    run. rewrite Hl. simpl. by rewrite !lookup_insert_eq.
  - erewrite bind_Ok by by apply APICache_Set_run.
    erewrite bind_Ok by reflexivity.
    erewrite APICache_Get_run; [|done|simpl; apply lookup_insert_eq].
    simpl. rewrite lookup_insert_eq. simpl.
    rewrite bool_decide_eq_true_2 by lia. done.
Qed.

(** C5, as the code has it: on an [APICache] whose store pointer points to a
    store, [Get] and [Set] return for every key, value and TTL; they have no
    error result and do not panic. *)
Theorem cache_calls_return ac l w c key v ttl :
  cache ac = Some l → heap w !! l = Some c →
  panics (APICache_Get ac key w) = false
  ∧ panics (APICache_Set ac key v ttl w) = false.
Proof.
  intros Hl Hc. split.
  - by erewrite APICache_Get_run.
  - by erewrite APICache_Set_run.
Qed.

Lemma cache_calls_return_witness :
  cache cache0 = Some 1%positive
  ∧ heap world0 !! 1%positive = Some ∅
  ∧ panics (APICache_Get cache0 "a" world0) = false
  ∧ panics (APICache_Set cache0 "a" (AnyInt 42) (-5) world0) = false.
Proof.
  split; [reflexivity|]. split; [reflexivity|].
  apply (cache_calls_return cache0 1%positive world0 ∅ "a" (AnyInt 42) (-5));
    reflexivity.
Defined.

(** C5 fails as stated: with no store behind it, as in the zero value
    [APICache{}], [Get] does not answer a miss and [Set] does not return;
    both panic on the nil pointer. *)
Lemma nil_cache_panics :
  panics (APICache_Get cache_nil "a" world0) = true
  ∧ result_of (APICache_Get cache_nil "a" world0) ≠ Some None
  ∧ panics (APICache_Set cache_nil "a" (AnyInt 42) 100 world0) = true.
Proof. split; [reflexivity|]. split; [discriminate|reflexivity]. Qed.

(** C6: a Get of [key] made after [Set(key, v, ttl)] with [ttl > 0], before
    the TTL has elapsed, returns the entry holding [v]. *)
Theorem Get_after_Set ac l w c key v ttl d :
  cache ac = Some l → heap w !! l = Some c →
  0 < ttl → 0 ≤ d < ttl →
  ∃ it, result_of ((APICache_Set ac key v ttl;; elapse d;; APICache_Get ac key) w)
          = Some (Some it)
        ∧ item_value it = v.
Proof.
  intros Hl Hc Httl Hd.
  exists {| item_key := key; item_value := v; item_expires := clock w + ttl |}.
  split; [|done].
  erewrite bind_Ok by by apply APICache_Set_run.
  erewrite bind_Ok by reflexivity.
  erewrite APICache_Get_run; [|done|simpl; apply lookup_insert_eq].
  simpl. rewrite lookup_insert_eq. simpl.
  rewrite bool_decide_eq_false_2 by lia. done.
Qed.

Lemma Get_after_Set_witness :
  cache cache0 = Some 1%positive
  ∧ heap world0 !! 1%positive = Some ∅
  ∧ 0 < 100 ∧ 0 ≤ 0 < 100
  ∧ ∃ it, result_of ((APICache_Set cache0 "a" (AnyInt 42) 100;; elapse 0;;
                      APICache_Get cache0 "a") world0) = Some (Some it)
          ∧ item_value it = AnyInt 42.
Proof.
  split; [reflexivity|]. split; [reflexivity|]. split; [lia|]. split; [lia|].
  apply (Get_after_Set cache0 1%positive world0 ∅ "a" (AnyInt 42) 100 0);
    [reflexivity|reflexivity|lia|lia].
Defined.

(** C7: after [Set(key, v, ttl)] with [ttl ≤ 0], every later Get of [key]
    returns [nil]: whatever calls follow, as long as none of them sets [key]
    again and the clock does not go back. *)
Theorem Set_nonpositive_ttl_expires_at_once ac l w c key v ttl cs :
  cache ac = Some l → heap w !! l = Some c →
  ttl ≤ 0 → no_Set key cs = true → clock_forward cs = true →
  result_of ((APICache_Set ac key v ttl;; calls ac cs;; APICache_Get ac key) w)
    = Some None.
Proof.
  intros Hl Hc Httl Hno Hfw.
  destruct (APICache_Set_then ac l w c key v ttl Hl Hc)
    as (w1 & c1 & Hset & Hc1 & Hclk1 & _ & Hk & _).
  erewrite bind_Ok by exact Hset.
  destruct (calls_run ac l cs w1 c1 Hl Hc1)
    as (w' & c' & Hrun & Hc' & Hclk & _ & Hinv).
  specialize (Hinv key (Some (clock w, ttl, v)) (or_introl Hk)).
  rewrite no_Set_last_Set in Hinv by done.
  erewrite bind_Ok by exact Hrun.
  erewrite APICache_Get_run by done.
  rewrite Hclk, Hclk1. simpl.
  pose proof (clock_forward_le cs (clock w) Hfw).
  destruct Hinv as [-> | ->]; simpl; [|done].
  rewrite bool_decide_eq_true_2; [done|]. lia.
Qed.

Lemma Set_nonpositive_ttl_expires_at_once_witness :
  cache cache0 = Some 1%positive
  ∧ heap world0 !! 1%positive = Some ∅
  ∧ 0 ≤ 0
  ∧ no_Set "a" [CallGet "a"; CallSet "b" AnyNil 7; Wait 3; CallGet "a"] = true
  ∧ clock_forward [CallGet "a"; CallSet "b" AnyNil 7; Wait 3; CallGet "a"] = true
  ∧ result_of ((APICache_Set cache0 "a" (AnyInt 42) 0;;
                calls cache0 [CallGet "a"; CallSet "b" AnyNil 7; Wait 3; CallGet "a"];;
                APICache_Get cache0 "a") world0) = Some None.
Proof.
  split; [reflexivity|]. split; [reflexivity|]. split; [lia|].
  split; [reflexivity|]. split; [reflexivity|].
  apply (Set_nonpositive_ttl_expires_at_once cache0 1%positive world0 ∅ "a"
           (AnyInt 42) 0 [CallGet "a"; CallSet "b" AnyNil 7; Wait 3; CallGet "a"]);
    [reflexivity|reflexivity|lia|reflexivity|reflexivity].
Defined.

(** C8: the last Set of a key wins.  After [Set(key, v1, t)] and then
    [Set(key, v2, t)], a Get of [key] made before [t] has elapsed since the
    second Set returns the entry holding [v2]. *)
Theorem last_Set_wins ac l w c key v1 v2 t d1 d2 :
  cache ac = Some l → heap w !! l = Some c →
  0 ≤ d2 < t →
  ∃ it, result_of ((APICache_Set ac key v1 t;; elapse d1;;
                    APICache_Set ac key v2 t;; elapse d2;;
                    APICache_Get ac key) w) = Some (Some it)
        ∧ item_value it = v2.
Proof.
  intros Hl Hc Hd.
  exists {| item_key := key; item_value := v2; item_expires := clock w + d1 + t |}.
  split; [|done].
  erewrite bind_Ok by by apply APICache_Set_run.
  erewrite bind_Ok by reflexivity.
  erewrite bind_Ok; [|apply APICache_Set_run; [done|simpl; apply lookup_insert_eq]].
  erewrite bind_Ok by reflexivity.
  erewrite APICache_Get_run; [|done|simpl; apply lookup_insert_eq].
  simpl. rewrite lookup_insert_eq. simpl.
  rewrite bool_decide_eq_false_2 by lia. done.
Qed.

Lemma last_Set_wins_witness :
  cache cache0 = Some 1%positive
  ∧ heap world0 !! 1%positive = Some ∅
  ∧ 0 ≤ 10 < 100
  ∧ ∃ it, result_of ((APICache_Set cache0 "a" (AnyInt 1) 100;; elapse 5;;
                      APICache_Set cache0 "a" (AnyInt 2) 100;; elapse 10;;
                      APICache_Get cache0 "a") world0) = Some (Some it)
          ∧ item_value it = AnyInt 2.
Proof.
  split; [reflexivity|]. split; [reflexivity|]. split; [lia|].
  apply (last_Set_wins cache0 1%positive world0 ∅ "a" (AnyInt 1) (AnyInt 2) 100 5 10);
    [reflexivity|reflexivity|lia].
Defined.




(** ** The session factory and its send hook *)

Lemma label_values_pair (n1 n2 x y : string) :
  n1 ≠ n2 → label_values [n1; n2] {[ n1 := x; n2 := y ]} = Some [x; y].
Proof.
  intros Hne. unfold label_values.
  rewrite decide_True.
  - simpl. rewrite lookup_insert_eq. simpl.
    rewrite lookup_insert_ne, lookup_singleton_eq by done. done.
  - rewrite map_size_insert_None by by rewrite lookup_singleton_ne.
    by rewrite map_size_singleton.
Qed.

(** The world the send hook leaves: one more on the sample of the request's
    labels, and one more log line when [AWSDebug] is set. *)
Lemma sendHook_run r w :
  sendHook r w =
    Ok r (let w1 := set_AWSRequest
                      (<[request_labels r := counter_value AWSRequest (request_labels r) w + 1]>
                         (AWSRequest_samples w)) w in
          if AWSDebug w then set_logs (logs w ++ [hook_line r]) w1 else w1).
Proof.
  unfold sendHook, With. simpl labelNames.
  rewrite label_values_pair by discriminate.
  unfold Counter_Add, log_Infof, mbind, M_bind, mret, M_ret. simpl.
  by destruct (AWSDebug w).
Qed.

(** The same, field by field. *)
Lemma sendHook_world r w :
  ∃ wh, sendHook r w = Ok r wh
    ∧ AWSRequest_samples wh
      = <[request_labels r := counter_value AWSRequest (request_labels r) w + 1]>
          (AWSRequest_samples w)
    ∧ logs wh = logs w ++ (if AWSDebug w then [hook_line r] else [])
    ∧ AWSDebug wh = AWSDebug w.
Proof.
  eexists. split; [apply sendHook_run|].
  destruct (AWSDebug w) eqn:E; simpl; by rewrite ?app_nil_r.
Qed.

(** Handlers that are quiet run to the end and leave the request counter,
    the log and the debug flag as they found them. *)
Lemma HandlerList_Run_quiet hs : ∀ r w,
  Forall quiet hs →
  ∃ r' w', HandlerList_Run hs r w = Ok r' w'
    ∧ AWSRequest_samples w' = AWSRequest_samples w
    ∧ logs w' = logs w
    ∧ AWSDebug w' = AWSDebug w.
Proof.
  induction hs as [|h hs IH]; intros r w Hq; simpl.
  - by exists r, w.
  - inversion Hq as [|? ? Hh Hhs]; subst.
    destruct (Hh r w) as (r1 & w1 & Hrun & Hc & Hl & Hd).
    destruct (IH r1 w1 Hhs) as (r2 & w2 & Hrun2 & Hc2 & Hl2 & Hd2).
    exists r2, w2. erewrite bind_Ok by exact Hrun.
    split; [done|]. by rewrite Hc2, Hl2, Hd2.
Qed.

(** X14: any number of sends through a session whose SDK handlers are quiet:
    each sample of [AWSRequest] goes up by the number of requests sent
    under its labels, and the log grows by one line per request if
    [AWSDebug] is set and by none otherwise. *)
Lemma sends_count s0 rs : ∀ w,
  Forall quiet (Handlers_Send s0) →
  ∃ w', sends {| Handlers_Send := sendHook :: Handlers_Send s0 |} rs w = Ok () w'
    ∧ (∀ vals, counter_value AWSRequest vals w'
         = counter_value AWSRequest vals w
           + Z.of_nat (length (filter (λ r, request_labels r = vals) rs)))
    ∧ length (logs w') = (length (logs w) + if AWSDebug w then length rs else 0)%nat
    ∧ AWSDebug w' = AWSDebug w.
Proof.
  induction rs as [|r rs IH]; intros w Hq; simpl.
  - exists w. split; [done|]. split; [intros; lia|].
    split; [|done]. destruct (AWSDebug w); lia.
  - destruct (sendHook_world r w) as (wh & Hhook & Hsamples & Hlogs & Hdh).
    destruct (HandlerList_Run_quiet (Handlers_Send s0) r wh Hq)
      as (r' & w1 & Hrun & Hc & Hl & Hd).
    assert (send {| Handlers_Send := sendHook :: Handlers_Send s0 |} r w = Ok r' w1)
      as Hsend by (unfold send; simpl; by erewrite bind_Ok by exact Hhook).
    erewrite bind_Ok by exact Hsend.
    destruct (IH w1 Hq) as (w' & Hrun' & Hcnt & Hlog & Hdbg).
    exists w'. split; [done|].
    split; [|split].
    + intros vals. rewrite Hcnt. unfold counter_value at 1. simpl.
      rewrite Hc, Hsamples, filter_cons.
      destruct (decide (request_labels r = vals)) as [<-|Hne].
      * rewrite lookup_insert_eq. simpl. lia.
      * rewrite lookup_insert_ne by done. unfold counter_value. simpl. lia.
    + rewrite Hlog, Hl, Hd, Hdh, Hlogs.
      destruct (AWSDebug w); simpl; [|rewrite app_nil_r; lia].
      rewrite length_app. simpl. lia.
    + by rewrite Hdbg, Hd, Hdh.
Qed.

Section NewSession_properties.

Variable aws_Config : Type.
Variable session_NewSession : aws_Config → Session + string.

Lemma NewSession_success cfg s0 w :
  session_NewSession cfg = inl s0 →
  NewSession aws_Config session_NewSession cfg w
    = Ok (Some {| Handlers_Send := sendHook :: Handlers_Send s0 |}) w.
Proof. intros H. unfold NewSession. by rewrite H. Qed.

(** C3: when the SDK fails to build the session, [NewSession] does not
    panic; it returns [nil], and the sample of [AWSErrorCount] labelled
    (service "AWS", request "NewSession") is one more than before while
    every other sample of [AWSErrorCount] is as before. *)
Theorem NewSession_failure cfg err w :
  session_NewSession cfg = inr err →
  ∃ w', NewSession aws_Config session_NewSession cfg w = Ok None w'
    ∧ counter_value AWSErrorCount ["AWS"; "NewSession"]%string w'
      = counter_value AWSErrorCount ["AWS"; "NewSession"]%string w + 1
    ∧ (∀ vals, vals ≠ ["AWS"; "NewSession"]%string →
         counter_value AWSErrorCount vals w' = counter_value AWSErrorCount vals w)
    ∧ logs w' = logs w ++ [failure_line err].
Proof.
  intros H. unfold NewSession. rewrite H.
  unfold With. simpl labelNames.
  rewrite label_values_pair by discriminate.
  unfold Counter_Add, log_Errorf, mbind, M_bind, mret, M_ret. simpl.
  eexists. split; [reflexivity|]. unfold counter_value. simpl.
  split; [by rewrite lookup_insert_eq|]. split; [|done].
  intros vals Hne. by rewrite lookup_insert_ne.
Qed.

(** C4: on every send through a session [NewSession] returned, the hook
    runs once, ahead of the handlers the SDK put on the session: it adds
    one to the sample of [AWSRequest] labelled with the service name and
    the operation name of the request and to no other sample, and it
    writes one log line if [AWSDebug] is set when the request is sent and
    none otherwise. *)
Theorem send_counts_request cfg s0 s w w' r wr :
  session_NewSession cfg = inl s0 →
  NewSession aws_Config session_NewSession cfg w = Ok (Some s) w' →
  ∃ wh, sendHook r wr = Ok r wh
    ∧ send s r wr = HandlerList_Run (Handlers_Send s0) r wh
    ∧ counter_value AWSRequest (request_labels r) wh
      = counter_value AWSRequest (request_labels r) wr + 1
    ∧ (∀ vals, vals ≠ request_labels r →
         counter_value AWSRequest vals wh = counter_value AWSRequest vals wr)
    ∧ logs wh = logs wr ++ (if AWSDebug wr then [hook_line r] else []).
Proof.
  intros H0 Hs. rewrite (NewSession_success _ _ _ H0) in Hs.
  injection Hs as <- <-.
  eexists. split; [apply sendHook_run|].
  split.
  { unfold send. simpl. erewrite bind_Ok by apply sendHook_run. done. }
  unfold counter_value.
  destruct (AWSDebug wr); simpl; rewrite lookup_insert_eq; simpl.
  - split; [done|]. split; [|done].
    intros vals Hne. by rewrite lookup_insert_ne.
  - split; [done|]. split; [|by rewrite app_nil_r].
    intros vals Hne. by rewrite lookup_insert_ne.
Qed.


End NewSession_properties.

Lemma NewSession_failure_witness :
  sdk_failing () = inr "NoCredentialProviders"%string
  ∧ ∃ w', NewSession unit sdk_failing () world0 = Ok None w'
      ∧ counter_value AWSErrorCount ["AWS"; "NewSession"]%string w'
        = counter_value AWSErrorCount ["AWS"; "NewSession"]%string world0 + 1
      ∧ (∀ vals, vals ≠ ["AWS"; "NewSession"]%string →
           counter_value AWSErrorCount vals w' = counter_value AWSErrorCount vals world0)
      ∧ logs w' = logs world0 ++ [failure_line "NoCredentialProviders"].
Proof.
  split; [reflexivity|].
  apply (NewSession_failure unit sdk_failing () "NoCredentialProviders" world0).
  reflexivity.
Defined.

Lemma send_counts_request_witness :
  sdk_plain () = inl {| Handlers_Send := [transport] |}
  ∧ NewSession unit sdk_plain () world0
    = Ok (Some {| Handlers_Send := [sendHook; transport] |}) world0
  ∧ ∃ wh, sendHook request0 world0 = Ok request0 wh
      ∧ send {| Handlers_Send := [sendHook; transport] |} request0 world0
        = HandlerList_Run [transport] request0 wh
      ∧ counter_value AWSRequest (request_labels request0) wh
        = counter_value AWSRequest (request_labels request0) world0 + 1
      ∧ (∀ vals, vals ≠ request_labels request0 →
           counter_value AWSRequest vals wh = counter_value AWSRequest vals world0)
      ∧ logs wh = logs world0 ++ (if AWSDebug world0 then [hook_line request0] else []).
Proof.
  split; [reflexivity|]. split; [reflexivity|].
  apply (send_counts_request unit sdk_plain () {| Handlers_Send := [transport] |}
           {| Handlers_Send := [sendHook; transport] |} world0 world0 request0 world0);
    reflexivity.
Defined.


(** * Further properties of the cache *)

(** Calls that do not set [key] leave the entry the store holds for it, or
    make the store drop it. *)
Lemma calls_no_Set_run ac l key cs : ∀ w c,
  cache ac = Some l → heap w !! l = Some c → no_Set key cs = true →
  ∃ w' c', calls ac cs w = Ok () w'
    ∧ heap w' !! l = Some c'
    ∧ clock w' = clock_after cs (clock w)
    ∧ (c' !! key = c !! key ∨ c' !! key = None).
Proof.
  induction cs as [|[k v d|k|d] cs IH]; intros w c Hl Hc Hno; simpl in *.
  - exists w, c. auto.
  - apply andb_prop in Hno as [Hk Hno]. apply bool_decide_eq_true in Hk.
    destruct (APICache_Set_then ac l w c k v d Hl Hc)
      as (w1 & c1 & Hset & Hc1 & Hclk1 & _ & _ & Hother).
    destruct (IH w1 c1 Hl Hc1 Hno) as (w' & c' & Hrun & Hc' & Hclk & Hkey).
    exists w', c'. split; [by erewrite bind_Ok by exact Hset|].
    split; [done|]. split; [by rewrite Hclk, Hclk1|].
    destruct Hkey as [Hkey|Hkey]; [|by right].
    rewrite Hkey. destruct (Hother key) as [-> | ->]; auto.
  - destruct (IH w c Hl Hc Hno) as (w' & c' & Hrun & Hc' & Hclk & Hkey).
    exists w', c'. split; [|by repeat split].
    erewrite bind_Ok; [exact Hrun|].
    erewrite bind_Ok; [|by eapply APICache_Get_run]. done.
  - destruct (IH (set_clock (clock w + d) w) c Hl Hc Hno)
      as (w' & c' & Hrun & Hc' & Hclk & Hkey).
    exists w', c'. split; [|by repeat split].
    erewrite bind_Ok; [exact Hrun|]. done.
Qed.

(** X1: a hit is the most recent Set.  After any history on a cache that
    started empty, a Get of [key] returns [nil], or else the entry with the
    value of the most recent Set of [key] and the expiry [t + ttl] fixed
    when that Set was made, whose TTL has not elapsed: never the value of
    an earlier Set, and never an entry of another key. *)
Theorem Get_hit_is_last_Set ac l w cs key :
  cache ac = Some l → heap w !! l = Some ∅ →
  result_of ((calls ac cs;; APICache_Get ac key) w) = Some None
  ∨ ∃ t ttl v, last_Set key cs (clock w) None = Some (t, ttl, v)
      ∧ clock_after cs (clock w) - t < ttl
      ∧ result_of ((calls ac cs;; APICache_Get ac key) w)
        = Some (Some {| item_key := key; item_value := v; item_expires := t + ttl |}).
Proof.
  intros Hl Hc.
  destruct (calls_run ac l cs w ∅ Hl Hc) as (w' & c' & Hrun & Hc' & Hclk & _ & Hinv).
  specialize (Hinv key None (or_introl (lookup_empty key))).
  erewrite bind_Ok by exact Hrun.
  erewrite APICache_Get_run by done. simpl. rewrite Hclk.
  destruct Hinv as [-> | ->]; [|by left].
  destruct (last_Set key cs (clock w) None) as [[[t ttl] v]|]; simpl; [|by left].
  case_bool_decide as Hexp; [by left|].
  right. exists t, ttl, v. split; [done|]. split; [lia|done].
Qed.

Lemma Get_hit_is_last_Set_witness :
  cache cache0 = Some 1%positive
  ∧ heap world0 !! 1%positive = Some ∅
  ∧ (result_of ((calls cache0 [CallSet "a" (AnyInt 1) 100; Wait 60;
                               CallSet "a" (AnyInt 2) 100; Wait 60];;
                 APICache_Get cache0 "a") world0) = Some None
     ∨ ∃ t ttl v,
         last_Set "a" [CallSet "a" (AnyInt 1) 100; Wait 60;
                       CallSet "a" (AnyInt 2) 100; Wait 60] (clock world0) None
           = Some (t, ttl, v)
         ∧ clock_after [CallSet "a" (AnyInt 1) 100; Wait 60;
                        CallSet "a" (AnyInt 2) 100; Wait 60] (clock world0) - t < ttl
         ∧ result_of ((calls cache0 [CallSet "a" (AnyInt 1) 100; Wait 60;
                                     CallSet "a" (AnyInt 2) 100; Wait 60];;
                       APICache_Get cache0 "a") world0)
           = Some (Some {| item_key := "a"; item_value := v; item_expires := t + ttl |})).
Proof.
  split; [reflexivity|]. split; [reflexivity|].
  apply (Get_hit_is_last_Set cache0 1%positive world0
           [CallSet "a" (AnyInt 1) 100; Wait 60; CallSet "a" (AnyInt 2) 100; Wait 60] "a");
    reflexivity.
Defined.



(** X3: a Set replaces the TTL along with the value.  After
    [Set(key, v1, t1)], a wait, [Set(key, v2, t2)] and a wait [d2], a Get of
    [key] returns [nil] when [t2 ≤ d2] and the entry of the second Set
    otherwise, whatever [t1] and the first wait were. *)
Theorem Set_resets_ttl ac l w c key v1 v2 t1 t2 d1 d2 :
  cache ac = Some l → heap w !! l = Some c →
  result_of ((APICache_Set ac key v1 t1;; elapse d1;;
              APICache_Set ac key v2 t2;; elapse d2;;
              APICache_Get ac key) w)
  = Some (if bool_decide (t2 ≤ d2) then None
          else Some {| item_key := key; item_value := v2;
                       item_expires := clock w + d1 + t2 |}).
Proof.
  intros Hl Hc.
  erewrite bind_Ok by by apply APICache_Set_run.
  erewrite bind_Ok by reflexivity.
  erewrite bind_Ok; [|apply APICache_Set_run; [done|simpl; apply lookup_insert_eq]].
  erewrite bind_Ok by reflexivity.
  erewrite APICache_Get_run; [|done|simpl; apply lookup_insert_eq].
  simpl. rewrite lookup_insert_eq. simpl. f_equal.
  do 2 case_bool_decide; try done; lia.
Qed.

Lemma Set_resets_ttl_witness :
  cache cache0 = Some 1%positive
  ∧ heap world0 !! 1%positive = Some ∅
  ∧ result_of ((APICache_Set cache0 "a" (AnyInt 1) 1000;; elapse 5;;
                APICache_Set cache0 "a" (AnyInt 2) 10;; elapse 10;;
                APICache_Get cache0 "a") world0)
    = Some (if bool_decide (10 ≤ 10) then None
            else Some {| item_key := "a"; item_value := AnyInt 2;
                         item_expires := clock world0 + 5 + 10 |}).
Proof.
  split; [reflexivity|]. split; [reflexivity|].
  apply (Set_resets_ttl cache0 1%positive world0 ∅ "a" (AnyInt 1) (AnyInt 2) 1000 10 5 10);
    reflexivity.
Defined.



(** X6: an expired or missing key stays absent.  Once a Get of [key]
    returns [nil], it returns [nil] after any further calls that do not set
    [key], as long as the clock does not go back. *)
Theorem absence_is_stable ac w key cs :
  result_of (APICache_Get ac key w) = Some None →
  no_Set key cs = true → clock_forward cs = true →
  result_of ((calls ac cs;; APICache_Get ac key) w) = Some None.
Proof.
  intros Hget Hno Hfw.
  destruct (cache ac) as [l|] eqn:Hl;
    [|by rewrite APICache_Get_nil in Hget].
  destruct (heap w !! l) as [c|] eqn:Hc;
    [|by erewrite APICache_Get_dangling in Hget].
  erewrite APICache_Get_run in Hget by done. simpl in Hget.
  destruct (calls_no_Set_run ac l key cs w c Hl Hc Hno)
    as (w' & c' & Hrun & Hc' & Hclk & Hkey).
  erewrite bind_Ok by exact Hrun.
  erewrite APICache_Get_run by done. simpl.
  rewrite Hclk.
  pose proof (clock_forward_le cs (clock w) Hfw).
  destruct Hkey as [-> | ->]; [|done].
  destruct (c !! key) as [it|]; simpl in *; [|done].
  case_bool_decide; [|done].
  rewrite bool_decide_eq_true_2 by lia. done.
Qed.

Lemma absence_is_stable_witness :
  result_of (APICache_Get cache0 "b" world1) = Some None
  ∧ no_Set "b" [CallGet "b"; Wait 500; CallSet "a" AnyNil 7] = true
  ∧ clock_forward [CallGet "b"; Wait 500; CallSet "a" AnyNil 7] = true
  ∧ result_of ((calls cache0 [CallGet "b"; Wait 500; CallSet "a" AnyNil 7];;
                APICache_Get cache0 "b") world1) = Some None.
Proof.
  split; [reflexivity|]. split; [reflexivity|]. split; [reflexivity|].
  apply (absence_is_stable cache0 world1 "b" [CallGet "b"; Wait 500; CallSet "a" AnyNil 7]);
    reflexivity.
Defined.




(** * Further properties of the session factory and the metrics *)

Lemma counters_le_refl w : counters_le w w.
Proof. intros vals. lia. Qed.

Lemma counters_le_trans w1 w2 w3 :
  counters_le w1 w2 → counters_le w2 w3 → counters_le w1 w3.
Proof. intros H12 H23 vals. specialize (H12 vals). specialize (H23 vals). lia. Qed.

(** Worlds with the same samples. *)
Lemma counters_le_same w w' :
  AWSErrorCount_samples w' = AWSErrorCount_samples w →
  AWSCache_samples w' = AWSCache_samples w →
  AWSRequest_samples w' = AWSRequest_samples w →
  counters_le w w'.
Proof.
  intros He Hc Hr vals. unfold counter_value. simpl. rewrite He, Hc, Hr. lia.
Qed.

Lemma sendHook_counters_le r w : counters_le w (world_of (sendHook r w)).
Proof.
  rewrite sendHook_run. simpl. intros vals.
  set (x := counter_value AWSRequest (request_labels r) w).
  assert (counter_value AWSRequest vals w
          ≤ default 0 (<[request_labels r := x + 1]> (AWSRequest_samples w) !! vals)).
  { destruct (decide (request_labels r = vals)) as [<-|Hne].
    - rewrite lookup_insert_eq. simpl. lia.
    - rewrite lookup_insert_ne by done. unfold counter_value. simpl. lia. }
  destruct (AWSDebug w); unfold counter_value in *; simpl in *; lia.
Qed.

Section Actions_properties.

Variable aws_Config : Type.
Variable session_NewSession : aws_Config → Session + string.

(** The world a failed [NewSession] leaves. *)
Lemma NewSession_failure_run cfg err w :
  session_NewSession cfg = inr err →
  NewSession aws_Config session_NewSession cfg w
  = Ok None (set_logs (logs w ++ [failure_line err])
               (set_AWSErrorCount
                  (<[["AWS"; "NewSession"]%string :=
                       counter_value AWSErrorCount ["AWS"; "NewSession"]%string w + 1]>
                     (AWSErrorCount_samples w)) w)).
Proof.
  intros H. unfold NewSession. rewrite H.
  unfold With. simpl labelNames.
  rewrite label_values_pair by discriminate. done.
Qed.

Lemma NewSession_counters_le cfg w :
  counters_le w (world_of (NewSession aws_Config session_NewSession cfg w)).
Proof.
  destruct (session_NewSession cfg) as [s0|err] eqn:H.
  - erewrite NewSession_success by done. apply counters_le_refl.
  - erewrite NewSession_failure_run by done. simpl. intros vals.
    set (k := ["AWS"; "NewSession"]%string).
    set (x := counter_value AWSErrorCount k w).
    assert (counter_value AWSErrorCount vals w
            ≤ default 0 (<[k := x + 1]> (AWSErrorCount_samples w) !! vals)).
    { destruct (decide (k = vals)) as [<-|Hne].
      - rewrite lookup_insert_eq. simpl. lia.
      - rewrite lookup_insert_ne by done. unfold counter_value. simpl. lia. }
    unfold counter_value in *; simpl in *; lia.
Qed.

Lemma act_counters_le a w :
  counters_le w (world_of (act aws_Config session_NewSession a w)).
Proof.
  destruct a as [cfg|r|ac key|ac key v d|b|d]; simpl.
  - pose proof (NewSession_counters_le cfg w) as H.
    unfold mbind, M_bind.
    by destruct (NewSession aws_Config session_NewSession cfg w).
  - pose proof (sendHook_counters_le r w) as H.
    unfold mbind, M_bind. by destruct (sendHook r w).
  - pose proof (APICache_Get_world ac key w) as H.
    unfold mbind, M_bind.
    destruct (APICache_Get ac key w); simpl in *; subst; apply counters_le_refl.
  - destruct (APICache_Set_world ac key v d w) as (h & p & ->). by apply counters_le_same.
  - by apply counters_le_same.
  - by apply counters_le_same.
Qed.

(** X9: the counters of the package are monotone.  Over any run of the
    package (sessions asked for, requests passing the hook, cache Gets and
    Sets, the debug flag flipped, time passing), up to its end or to the
    first panic, no sample of [AWSErrorCount], [AWSCache] or [AWSRequest]
    ever goes down. *)
Theorem counters_never_decrease l w :
  counters_le w (world_of (acts aws_Config session_NewSession l w)).
Proof.
  revert w. induction l as [|a l IH]; intros w; simpl.
  - apply counters_le_refl.
  - pose proof (act_counters_le a w) as Ha.
    unfold mbind, M_bind.
    destruct (act aws_Config session_NewSession a w) as [[] w1|msg w1]; simpl in *.
    + eapply counters_le_trans; [exact Ha|apply IH].
    + exact Ha.
Qed.

(** X10: [NewSession] never panics; it returns [nil] exactly when the SDK
    fails to build the session, and the sample of [AWSErrorCount] labelled
    (service "AWS", request "NewSession") goes up, by one, exactly then. *)
Theorem NewSession_nil_iff_SDK_fails cfg w :
  panics (NewSession aws_Config session_NewSession cfg w) = false
  ∧ (result_of (NewSession aws_Config session_NewSession cfg w) = Some None
     ↔ ∃ err, session_NewSession cfg = inr err)
  ∧ counter_value AWSErrorCount ["AWS"; "NewSession"]%string
      (world_of (NewSession aws_Config session_NewSession cfg w))
    = counter_value AWSErrorCount ["AWS"; "NewSession"]%string w
      + match session_NewSession cfg with inl _ => 0 | inr _ => 1 end.
Proof.
  destruct (session_NewSession cfg) as [s0|err] eqn:H.
  - erewrite NewSession_success by done. simpl. split; [done|]. split; [|lia].
    split; [done|]. by intros [err [=]].
  - erewrite NewSession_failure_run by done. simpl. split; [done|]. split.
    + split; [by exists err|done].
    + unfold counter_value. simpl. by rewrite lookup_insert_eq.
Qed.

(** X11: [NewSession] touches neither the caches nor the clock, the debug
    flag, [AWSCache] or [AWSRequest], whether the SDK fails or not; and when
    it returns a session it has written nothing at all, the error counter
    and the log included. *)
Theorem NewSession_frame cfg w :
  heap (world_of (NewSession aws_Config session_NewSession cfg w)) = heap w
  ∧ clock (world_of (NewSession aws_Config session_NewSession cfg w)) = clock w
  ∧ AWSDebug (world_of (NewSession aws_Config session_NewSession cfg w)) = AWSDebug w
  ∧ AWSCache_samples (world_of (NewSession aws_Config session_NewSession cfg w))
    = AWSCache_samples w
  ∧ AWSRequest_samples (world_of (NewSession aws_Config session_NewSession cfg w))
    = AWSRequest_samples w
  ∧ (is_Some (result_of (NewSession aws_Config session_NewSession cfg w) ≫= id) →
     world_of (NewSession aws_Config session_NewSession cfg w) = w).
Proof.
  destruct (session_NewSession cfg) as [s0|err] eqn:H.
  - erewrite NewSession_success by done. by repeat split.
  - erewrite NewSession_failure_run by done. simpl. repeat split.
    by intros [? [=]].
Qed.

End Actions_properties.

(** X12: the send hook touches neither the caches nor the clock, the debug
    flag, [AWSErrorCount] or [AWSCache], for any request. *)
Theorem sendHook_frame r w :
  heap (world_of (sendHook r w)) = heap w
  ∧ clock (world_of (sendHook r w)) = clock w
  ∧ AWSDebug (world_of (sendHook r w)) = AWSDebug w
  ∧ AWSErrorCount_samples (world_of (sendHook r w)) = AWSErrorCount_samples w
  ∧ AWSCache_samples (world_of (sendHook r w)) = AWSCache_samples w.
Proof. rewrite sendHook_run. simpl. by destruct (AWSDebug w) eqn:E. Qed.

Lemma sends_count_witness :
  Forall quiet [transport]
  ∧ ∃ w', sends {| Handlers_Send := sendHook :: [transport] |}
            [request0; request0; request0] world0 = Ok () w'
      ∧ (∀ vals, counter_value AWSRequest vals w'
           = counter_value AWSRequest vals world0
             + Z.of_nat (length (filter (λ r, request_labels r = vals)
                                   [request0; request0; request0])))
      ∧ length (logs w')
        = (length (logs world0) + if AWSDebug world0 then 3 else 0)%nat
      ∧ AWSDebug w' = AWSDebug world0.
Proof.
  assert (Forall quiet [transport]) as Hq.
  { repeat constructor. intros r w. by exists r, w. }
  split; [exact Hq|].
  apply (sends_count {| Handlers_Send := [transport] |}
           [request0; request0; request0] world0 Hq).
Defined.

(** * Registration *)

Lemma package_descs_valid : forallb valid_desc package_descs = true.
Proof. reflexivity. Qed.

Lemma Register_valid d reg :
  valid_desc d = true →
  Register d reg = if decide (reg !! fqName d = None)
                   then Some (<[fqName d := d]> reg) else None.
Proof.
  intros Hv. unfold Register. rewrite Hv. simpl.
  by destruct (decide (reg !! fqName d = None));
    [rewrite bool_decide_eq_true_2|rewrite bool_decide_eq_false_2].
Qed.

(** X13: [init] registers its six collectors exactly when the registry
    holds none of their names yet, and then adds these six descriptors and
    nothing else; on a registry that holds one of the names it panics.  The
    six names are valid and pairwise different, so [init] does not trip
    over itself. *)
Theorem init_registers_the_six reg :
  init reg
  = if bool_decide (Forall (λ d, reg !! fqName d = None) package_descs)
    then Some (foldl (λ m d, <[fqName d := d]> m) reg package_descs)
    else None.
Proof.
  unfold init, MustRegister, package_descs.
  do 6 (rewrite Register_valid by reflexivity;
        match goal with
        | |- context [decide (?m !! ?k = None)] =>
            destruct (decide (m !! k = None)) as [?|Hn]
        end; simpl in *;
        [rewrite ?lookup_insert_ne in * by done
        |rewrite bool_decide_eq_false_2; [done|];
         intros HF; apply Hn; rewrite ?lookup_insert_ne by done;
         repeat (apply Forall_cons in HF as [? HF]); done]).
  rewrite bool_decide_eq_true_2; [done|]. by repeat constructor.
Qed.
